(** * avowed / valex: tag-driven struct validation, shallow embedding

    Embeds [tag.go] (struct walker, directive dispatcher, parameter
    parsing), [validators.go] (leaf validators, composite validator) and
    [validator.go] ([ValidatedValue]).  Go [int] is [Z]; a Go [string] is
    a [string] whose [ascii] characters are its bytes, so [length] is Go's
    [len].  A Go [error] is [option error]: [None] is [nil]. *)

From Stdlib Require Import String Ascii List ZArith Bool Lia.
Import ListNotations.
Open Scope string_scope.
Open Scope Z_scope.
Set Warnings "-register-all".

(** ** Byte-string helpers from Go's [strings] and [strconv] packages *)

Definition byte_of (n : nat) : ascii := ascii_of_nat n.

Definition str_of_codes (l : list nat) : string :=
  fold_right (fun n s => String (byte_of n) s) EmptyString l.

(** [strings.Split(s, sep)] for a one-byte separator: every occurrence
    splits; [Split("", sep) = [""]]. *)
Fixpoint split_at (sep : ascii) (s : string) : list string :=
  match s with
  | EmptyString => [EmptyString]
  | String c rest =>
      if Ascii.eqb c sep then EmptyString :: split_at sep rest
      else match split_at sep rest with
           | [] => [String c EmptyString]
           | w :: ws => String c w :: ws
           end
  end.

Definition Split (s : string) (sep : ascii) : list string := split_at sep s.

(** UTF-8 encodings of the code points for which [unicode.IsSpace] holds:
    the ASCII spaces, U+0085, U+00A0, U+1680, U+2000..U+200A, U+2028,
    U+2029, U+202F, U+205F and U+3000. *)
Definition space_encodings : list string :=
  map str_of_codes
    (app [[9]; [10]; [11]; [12]; [13]; [32]; [194; 133]; [194; 160];
          [225; 154; 128]]
     (app (map (fun k => [226; 128; 128 + k]) (seq 0 11))
          [[226; 128; 168]; [226; 128; 169]; [226; 128; 175];
           [226; 129; 159]; [227; 128; 128]]))%nat.

Fixpoint strip_prefix (p s : string) : option string :=
  match p, s with
  | EmptyString, _ => Some s
  | String a p', String b s' => if Ascii.eqb a b then strip_prefix p' s' else None
  | String _ _, EmptyString => None
  end.

Fixpoint first_some {A B} (f : A -> option B) (l : list A) : option B :=
  match l with
  | [] => None
  | x :: xs => match f x with Some y => Some y | None => first_some f xs end
  end.

(** Drops leading space runes; [fuel] bounds the number of runes. *)
Fixpoint trim_left_n (fuel : nat) (s : string) : string :=
  match fuel with
  | O => s
  | S k =>
      match first_some (fun p => strip_prefix p s) space_encodings with
      | Some s' => trim_left_n k s'
      | None => s
      end
  end.

Fixpoint string_rev (s : string) : string :=
  match s with
  | EmptyString => EmptyString
  | String c s' => string_rev s' ++ String c EmptyString
  end.

Definition TrimLeft (s : string) : string := trim_left_n (String.length s) s.

Definition rev_space_encodings : list string := map string_rev space_encodings.

Fixpoint trim_right_rev_n (fuel : nat) (r : string) : string :=
  match fuel with
  | O => r
  | S k =>
      match first_some (fun p => strip_prefix p r) rev_space_encodings with
      | Some r' => trim_right_rev_n k r'
      | None => r
      end
  end.

(** [strings.TrimSpace]. *)
Definition TrimSpace (s : string) : string :=
  let l := TrimLeft s in
  string_rev (trim_right_rev_n (String.length l) (string_rev l)).

Definition is_digit (c : ascii) : bool :=
  let n := nat_of_ascii c in (48 <=? n)%nat && (n <=? 57)%nat.

Fixpoint digits_value (acc : Z) (s : string) : option Z :=
  match s with
  | EmptyString => Some acc
  | String c s' =>
      if is_digit c then digits_value (acc * 10 + Z.of_nat (nat_of_ascii c - 48)) s'
      else None
  end.

Definition MinInt : Z := - 2 ^ 63.
Definition MaxInt : Z := 2 ^ 63 - 1.

(** [strconv.Atoi] on a 64-bit platform: an optional sign, at least one
    decimal digit, and a result that fits [int]; anything else is an
    error (syntax or range). *)
Definition Atoi (s : string) : option Z :=
  let '(neg, body) :=
    match s with
    | String c s' =>
        if Ascii.eqb c "-"%char then (true, s')
        else if Ascii.eqb c "+"%char then (false, s')
        else (false, s)
    | EmptyString => (false, s)
    end in
  match body with
  | EmptyString => None
  | _ =>
      match digits_value 0 body with
      | None => None
      | Some n =>
          let n := if neg then - n else n in
          if (MinInt <=? n) && (n <=? MaxInt) then Some n else None
      end
  end.

(** ** Errors

    One constructor per error value the code builds; the arguments are
    the operands of the format string. *)
Inductive error : Type :=
  (* validators.go *)
  | ErrOutOfRange (val min max : Z)             (* "value %d is out of range [%d, %d]" *)
  | ErrOutOfRangeStr (val min max : string)     (* CmpRangeValidator[string]: "value %v is out of range [%v, %v]" *)
  | ErrNegative (val : Z)                       (* "value %d is a negative integer" *)
  | ErrPositive (val : Z)                       (* "value %d is a positive integer" *)
  | ErrLib (msg : string)                       (* an error returned as is by net/url or net/mail *)
  | ErrEmptyString                              (* "string is empty" *)
  | ErrSizeZero                                 (* `value of parameter "size" cannot be 0` *)
  | ErrBelowMinLength (val : string) (size : Z) (* "value %s exeeds minimum length %d" *)
  | ErrAboveMaxLength (val : string) (size : Z) (* "value %s exeeds maximum length %d" *)
  | ErrMinZero                                  (* `"min" value cannot be 0` *)
  | ErrMaxZero                                  (* `"max" value cannot be 0` *)
  | ErrLengthNotInRange (val : string) (l min max : Z)
                                                (* "value %q with length %d is not in range [%d, %d]" *)
  | ErrNoMatch (val pattern : string)           (* "value %q does not match pattern %q" *)
  | ErrNotAlphanumeric (val : string)           (* "value %q is not alphanumeric" *)
  | ErrInvalidMAC (val msg : string)            (* "invalid MAC address %q: %v" *)
  | ErrInvalidIP (val : string)                 (* "invalid IP address %q" *)
  | ErrInvalidIPv4 (val : string)               (* "invalid IPv4 address %q" *)
  | ErrInvalidIPv6 (val : string)               (* "invalid IPv6 address %q" *)
  | ErrXMLParsing (msg : string)                (* "XML parsing error: %w" *)
  | ErrXMLNoElement                             (* "XML document must contain at least one element" *)
  | ErrInvalidJSON                              (* "invalid JSON" *)
  (* validator.go *)
  | ErrNoValidator                              (* "no validator set" *)
  | ErrUser (msg : string)                      (* an error built by a user-supplied ValidatorFunc *)
  (* tag.go *)
  | ErrUnknownValidator (id name : string)      (* "unknown validator %q  for field %q" *)
  | ErrMissingValidator (name : string)         (* "missing validator for field %q" *)
  | ErrValidatingField (name : string) (cause : option error)
                                                (* "error validating field %q: %v" *)
  | ErrExpected2Params (params : list string)   (* "expected 2 parameters (%s, %s), found: %v" *)
  | ErrInvalidParamValue (v k : string)         (* "invalid value %q for parameter %q" *)
  | ErrExpected1Param (key : string) (params : list string)
                                                (* "expected 1 parameter (%s), found: %v" *)
  | ErrExpectedParam (key k : string)           (* "expected parameter %q, found: %q" *)
  | ErrMalformedPair (pair : string)            (* "malformed key value pair %q, ..." *)
  | ErrRegexp (msg : string).                   (* the *regexp.Error of regexp.Compile *)

(** The messages of these constructors carry a [field %q] operand. *)
Definition names_field (f : string) (e : error) : bool :=
  match e with
  | ErrUnknownValidator _ n | ErrMissingValidator n | ErrValidatingField n _ => String.eqb n f
  | _ => false
  end.

(** [Validate(val T) (ok bool, err error)]. *)
Definition result : Type := (bool * option error)%type.

(** ** The Go standard-library functions the validators call

    Their grammars (RFC 3986, RFC 5322, RE2, JSON, XML) are outside the
    code under study; each is an argument of the development. *)
Inductive xml_token : Type := XStartElement | XOtherToken.

Record GoLib : Type := {
  ParseRequestURI : string -> option string;     (* url.ParseRequestURI: its error, if any *)
  ParseAddress : string -> option string;        (* mail.ParseAddress *)
  ParseMAC : string -> option string;            (* net.ParseMAC *)
  ParseIP : string -> option (list Z);           (* net.ParseIP: None is a nil IP *)
  RegexpCompile : string -> option string;       (* regexp.Compile: its error, if any *)
  RegexpMatch : string -> string -> bool;        (* Regexp.MatchString, by pattern source *)
  JsonValid : string -> bool;                    (* json.Valid *)
  XmlTokens : string -> list xml_token * option string
    (* the tokens xml.Decoder.Token yields, then None for io.EOF or the
       first other error *)
}.

(** [net.IP.To4]. *)
Definition To4 (ip : list Z) : option (list Z) :=
  if (List.length ip =? 4)%nat then Some ip
  else if (List.length ip =? 16)%nat
          && forallb (fun b => b =? 0) (firstn 10 ip)
          && (nth 10 ip 0 =? 255) && (nth 11 ip 0 =? 255)
  then Some (skipn 12 ip) else None.

(** Go's [<] on strings: byte-wise lexicographic. *)
Fixpoint str_lt (a b : string) : bool :=
  match a, b with
  | EmptyString, String _ _ => true
  | _, EmptyString => false
  | String x a', String y b' =>
      let nx := nat_of_ascii x in
      let ny := nat_of_ascii y in
      if (nx <? ny)%nat then true else if (ny <? nx)%nat then false else str_lt a' b'
  end.

(** [regexp.MatchString(`^[a-zA-Z0-9]+$`, val)]; its error is nil for
    this constant pattern. *)
Definition is_alnum (c : ascii) : bool :=
  let n := nat_of_ascii c in
  (((48 <=? n) && (n <=? 57)) || ((65 <=? n) && (n <=? 90)) || ((97 <=? n) && (n <=? 122)))%nat.

Fixpoint all_alnum (s : string) : bool :=
  match s with
  | EmptyString => true
  | String c s' => is_alnum c && all_alnum s'
  end.

Definition alnum_match (s : string) : bool :=
  match s with EmptyString => false | _ => all_alnum s end.

(** ** validators.go *)

(** [CompositeValidator[T].Validate]: the first member returning
    [ok = false] ends the loop with its error. *)
Fixpoint CompositeValidate {T : Type} (Validators : list (T -> result)) (val : T) : result :=
  match Validators with
  | [] => (true, None)
  | validator :: rest =>
      let '(ok, err) := validator val in
      if ok then CompositeValidate rest val else (false, err)
  end.

(** The [Validator[int]] implementations of the library. *)
Inductive IntValidator : Type :=
  | IntRangeValidator (Min Max : Z)
  | NonNegativeIntValidator
  | NonPositiveIntValidator
  | IntCmpRangeValidator (Min Max : Z)          (* CmpRangeValidator[int] *)
  | IntCompositeValidator (Validators : list IntValidator).

(** The [Validator[string]] implementations of the library.  A
    [RegexValidator] holds a compiled pattern, named by its source. *)
Inductive StringValidator : Type :=
  | UrlValidator
  | EmailValidator
  | NonEmptyStringValidator
  | MinLengthValidator (Size : Z)
  | MaxLengthValidator (Size : Z)
  | LengthRangeValidator (Min Max : Z)
  | RegexValidator (Pattern : string)
  | AlphaNumericValidator
  | MACAddressValidator
  | IpValidator
  | IPv4Validator
  | IPv6Validator
  | XMLValidator
  | JSONValidator
  | StrCmpRangeValidator (Min Max : string)     (* CmpRangeValidator[string] *)
  | StrCompositeValidator (Validators : list StringValidator).

(** Induction over the nested validator syntaxes: the composite case
    gets its property for every member. *)
Section ValidatorInduction.
Variable P : IntValidator -> Prop.
Hypothesis HRange : forall mn mx, P (IntRangeValidator mn mx).
Hypothesis HNonNeg : P NonNegativeIntValidator.
Hypothesis HNonPos : P NonPositiveIntValidator.
Hypothesis HCmp : forall mn mx, P (IntCmpRangeValidator mn mx).
Hypothesis HComp : forall vs, Forall P vs -> P (IntCompositeValidator vs).

Fixpoint IntValidator_rect' (v : IntValidator) : P v :=
  match v with
  | IntRangeValidator mn mx => HRange mn mx
  | NonNegativeIntValidator => HNonNeg
  | NonPositiveIntValidator => HNonPos
  | IntCmpRangeValidator mn mx => HCmp mn mx
  | IntCompositeValidator vs =>
      HComp vs ((fix go (l : list IntValidator) : Forall P l :=
                   match l with
                   | [] => Forall_nil P
                   | u :: l' => Forall_cons u (IntValidator_rect' u) (go l')
                   end) vs)
  end.
End ValidatorInduction.

Section StringValidatorInduction.
Variable P : StringValidator -> Prop.
Hypothesis HLeaf : forall v, (forall vs, v <> StrCompositeValidator vs) -> P v.
Hypothesis HComp : forall vs, Forall P vs -> P (StrCompositeValidator vs).

Fixpoint StringValidator_rect' (v : StringValidator) : P v :=
  match v as v0 return P v0 with
  | StrCompositeValidator vs =>
      HComp vs ((fix go (l : list StringValidator) : Forall P l :=
                   match l with
                   | [] => Forall_nil P
                   | u :: l' => Forall_cons u (StringValidator_rect' u) (go l')
                   end) vs)
  | v0 => HLeaf v0 ltac:(intros ? H; discriminate H)
  end.
End StringValidatorInduction.

Definition IntRangeValidator_Validate (Min Max val : Z) : result :=
  if (val <? Min) || (val >? Max) then (false, Some (ErrOutOfRange val Min Max))
  else (true, None).

Definition IntCmpRangeValidator_Validate (Min Max val : Z) : result :=
  if (val <? Min) || (Max <? val) then (false, Some (ErrOutOfRange val Min Max))
  else (true, None).

Definition NonNegativeIntValidator_Validate (val : Z) : result :=
  if val <? 0 then (false, Some (ErrNegative val)) else (true, None).

Definition NonPositiveIntValidator_Validate (val : Z) : result :=
  if val >? 0 then (false, Some (ErrPositive val)) else (true, None).

Fixpoint ValidateInt (v : IntValidator) (val : Z) : result :=
  match v with
  | IntRangeValidator mn mx => IntRangeValidator_Validate mn mx val
  | NonNegativeIntValidator => NonNegativeIntValidator_Validate val
  | NonPositiveIntValidator => NonPositiveIntValidator_Validate val
  | IntCmpRangeValidator mn mx => IntCmpRangeValidator_Validate mn mx val
  | IntCompositeValidator vs => CompositeValidate (map ValidateInt vs) val
  end.

Definition NonEmptyStringValidator_Validate (val : string) : result :=
  if String.eqb val "" then (false, Some ErrEmptyString) else (true, None).

Definition MinLengthValidator_Validate (Size : Z) (val : string) : result :=
  if Size =? 0 then (false, Some ErrSizeZero)
  else if Z.of_nat (String.length val) <? Size then (false, Some (ErrBelowMinLength val Size))
  else (true, None).

Definition MaxLengthValidator_Validate (Size : Z) (val : string) : result :=
  if Size =? 0 then (false, Some ErrSizeZero)
  else if Z.of_nat (String.length val) >? Size then (false, Some (ErrAboveMaxLength val Size))
  else (true, None).

Definition LengthRangeValidator_Validate (Min Max : Z) (val : string) : result :=
  let l := Z.of_nat (String.length val) in
  if Min =? 0 then (false, Some ErrMinZero)
  else if Max =? 0 then (false, Some ErrMaxZero)
  else if (l <? Min) || (l >? Max) then (false, Some (ErrLengthNotInRange val l Min Max))
  else (true, None).

Definition AlphaNumericValidator_Validate (val : string) : result :=
  if alnum_match val then (true, None) else (false, Some (ErrNotAlphanumeric val)).

Definition StrCmpRangeValidator_Validate (Min Max val : string) : result :=
  if str_lt val Min || str_lt Max val then (false, Some (ErrOutOfRangeStr val Min Max))
  else (true, None).

Section WithLib.
Context (lib : GoLib).

Definition UrlValidator_Validate (val : string) : result :=
  match ParseRequestURI lib val with
  | None => (true, None)
  | Some m => (false, Some (ErrLib m))
  end.

Definition EmailValidator_Validate (val : string) : result :=
  match ParseAddress lib val with
  | None => (true, None)
  | Some m => (false, Some (ErrLib m))
  end.

Definition RegexValidator_Validate (Pattern val : string) : result :=
  if negb (RegexpMatch lib Pattern val) then (false, Some (ErrNoMatch val Pattern))
  else (true, None).

Definition MACAddressValidator_Validate (val : string) : result :=
  match ParseMAC lib val with
  | Some m => (false, Some (ErrInvalidMAC val m))
  | None => (true, None)
  end.

Definition IpValidator_Validate (val : string) : result :=
  match ParseIP lib val with
  | None => (false, Some (ErrInvalidIP val))
  | Some _ => (true, None)
  end.

Definition IPv4Validator_Validate (val : string) : result :=
  match ParseIP lib val with
  | Some ip => match To4 ip with
               | Some _ => (true, None)
               | None => (false, Some (ErrInvalidIPv4 val))
               end
  | None => (false, Some (ErrInvalidIPv4 val))
  end.

Definition IPv6Validator_Validate (val : string) : result :=
  match ParseIP lib val with
  | Some ip => match To4 ip with
               | None => (true, None)
               | Some _ => (false, Some (ErrInvalidIPv6 val))
               end
  | None => (false, Some (ErrInvalidIPv6 val))
  end.

(** The token loop of [XMLValidator.Validate]: a non-EOF error ends it
    with a parsing error, EOF ends it normally. *)
Definition XMLValidator_Validate (val : string) : result :=
  let '(toks, stop) := XmlTokens lib val in
  match stop with
  | Some m => (false, Some (ErrXMLParsing m))
  | None =>
      let hasElement := existsb (fun t => match t with XStartElement => true | _ => false end) toks in
      if negb hasElement then (false, Some ErrXMLNoElement) else (true, None)
  end.

Definition JSONValidator_Validate (val : string) : result :=
  if negb (JsonValid lib val) then (false, Some ErrInvalidJSON) else (true, None).

Fixpoint ValidateString (v : StringValidator) (val : string) : result :=
  match v with
  | UrlValidator => UrlValidator_Validate val
  | EmailValidator => EmailValidator_Validate val
  | NonEmptyStringValidator => NonEmptyStringValidator_Validate val
  | MinLengthValidator n => MinLengthValidator_Validate n val
  | MaxLengthValidator n => MaxLengthValidator_Validate n val
  | LengthRangeValidator mn mx => LengthRangeValidator_Validate mn mx val
  | RegexValidator p => RegexValidator_Validate p val
  | AlphaNumericValidator => AlphaNumericValidator_Validate val
  | MACAddressValidator => MACAddressValidator_Validate val
  | IpValidator => IpValidator_Validate val
  | IPv4Validator => IPv4Validator_Validate val
  | IPv6Validator => IPv6Validator_Validate val
  | XMLValidator => XMLValidator_Validate val
  | JSONValidator => JSONValidator_Validate val
  | StrCmpRangeValidator mn mx => StrCmpRangeValidator_Validate mn mx val
  | StrCompositeValidator vs => CompositeValidate (map ValidateString vs) val
  end.

(** ** tag.go: parameters *)

(** [kv]: [strings.Split(pair, "=")] must give exactly two parts, both
    non-empty after [strings.TrimSpace]. *)
Definition kv (pair : string) : error + (string * string) :=
  match Split pair "="%char with
  | [a; b] =>
      let k := TrimSpace a in
      let v := TrimSpace b in
      if negb (String.eqb k "") && negb (String.eqb v "") then inr (k, v)
      else inl (ErrMalformedPair pair)
  | _ => inl (ErrMalformedPair pair)
  end.

Definition minKey : string := "min".
Definition maxKey : string := "max".
Definition sizeKey : string := "size".
Definition patternKey : string := "pattern".

(** The [for _, pair := range params] loop of [rangeFinder], with the
    named results [min] and [max] as accumulators. *)
Fixpoint rangeFinder_loop (params : list string) (min max : Z) : error + (Z * Z) :=
  match params with
  | [] => inr (min, max)
  | pr :: rest =>
      match kv pr with
      | inl e => inl e
      | inr (k, v) =>
          if String.eqb k minKey then
            match Atoi v with
            | None => inl (ErrInvalidParamValue v k)
            | Some n => rangeFinder_loop rest n max
            end
          else if String.eqb k maxKey then
            match Atoi v with
            | None => inl (ErrInvalidParamValue v k)
            | Some n => rangeFinder_loop rest min n
            end
          else rangeFinder_loop rest min max
      end
  end.

Definition rangeFinder (params : list string) : error + (Z * Z) :=
  if negb (List.length params =? 2)%nat then inl (ErrExpected2Params params)
  else rangeFinder_loop params 0 0.

Definition stringParam (key : string) (params : list string) : error + string :=
  match params with
  | [p] =>
      if String.eqb p "" then inl (ErrExpected1Param key params)
      else match kv p with
           | inl e => inl e
           | inr (k, v) => if negb (String.eqb k key) then inl (ErrExpectedParam key k) else inr v
           end
  | _ => inl (ErrExpected1Param key params)
  end.

Definition intParam (key : string) (params : list string) : error + Z :=
  match stringParam key params with
  | inl e => inl e
  | inr v => match Atoi v with
             | None => inl (ErrInvalidParamValue v key)
             | Some i => inr i
             end
  end.

Definition patternParam (params : list string) : error + string :=
  match stringParam patternKey params with
  | inl e => inl e
  | inr v => match RegexpCompile lib v with
             | Some m => inl (ErrRegexp m)
             | None => inr v
             end
  end.

Definition vals (tag name : string) : error + list string :=
  match Split tag ","%char with
  | [] => inl (ErrMissingValidator name)
  | vs => inr vs
  end.

(** [fieldValidate]: a rejected value is reported with the field name;
    the cause is printed with [%v], so a nil cause is kept as [None]. *)
Definition fieldValidate {T : Type} (name : string) (value : T) (v : T -> result) : result :=
  let '(ok, err) := v value in
  if negb ok then (false, Some (ErrValidatingField name err)) else (true, None).

(** ** tag.go: dispatch *)

(** The [switch id] of [intValidators]: the validator a directive names. *)
Definition intDirective (id name : string) (params : list string) : error + IntValidator :=
  if String.eqb id "range" then
    match rangeFinder params with
    | inl e => inl e
    | inr (min, max) => inr (IntRangeValidator min max)
    end
  else if String.eqb id "pos" then inr NonNegativeIntValidator
  else if String.eqb id "neg" then inr NonPositiveIntValidator
  else inl (ErrUnknownValidator id name).

Definition intValidators (tag name : string) (value : Z) : result :=
  match vals tag name with
  | inl e => (false, Some e)
  | inr vs =>
      match intDirective (TrimSpace (hd "" vs)) name (tl vs) with
      | inl e => (false, Some e)
      | inr v => fieldValidate name value (ValidateInt v)
      end
  end.

(** The [switch id] of [stringValidators]. *)
Definition stringDirective (id name : string) (params : list string) : error + StringValidator :=
  if String.eqb id "length" then
    match rangeFinder params with
    | inl e => inl e
    | inr (min, max) => inr (LengthRangeValidator min max)
    end
  else if String.eqb id "min" then
    match intParam sizeKey params with
    | inl e => inl e
    | inr size => inr (MinLengthValidator size)
    end
  else if String.eqb id "max" then
    match intParam sizeKey params with
    | inl e => inl e
    | inr size => inr (MaxLengthValidator size)
    end
  else if String.eqb id "regex" then
    match patternParam params with
    | inl e => inl e
    | inr pattern => inr (RegexValidator pattern)
    end
  else if String.eqb id "alphanum" then inr AlphaNumericValidator
  else if String.eqb id "ipv4" then inr IPv4Validator
  else if String.eqb id "ipv6" then inr IPv6Validator
  else if String.eqb id "mac" then inr MACAddressValidator
  else if String.eqb id "json" then inr JSONValidator
  else if String.eqb id "xml" then inr XMLValidator
  else if String.eqb id "url" then inr UrlValidator
  else if String.eqb id "email" then inr EmailValidator
  else if String.eqb id "!empty" then inr NonEmptyStringValidator
  else inl (ErrUnknownValidator id name).

Definition stringValidators (tag name : string) (value : string) : result :=
  match vals tag name with
  | inl e => (false, Some e)
  | inr vs =>
      match stringDirective (TrimSpace (hd "" vs)) name (tl vs) with
      | inl e => (false, Some e)
      | inr v => fieldValidate name value (ValidateString v)
      end
  end.

(** ** tag.go: the struct walker *)

(** The dynamic value of a field, as the type switch sees it: exactly
    [string], exactly [int], or anything else. *)
Inductive go_value : Type :=
  | VString (s : string)
  | VInt (n : Z)
  | VOther.

(** What [reflect] gives for one field: its name, [Tag.Lookup("val")],
    whether it is exported, and its value. *)
Record StructField : Type := {
  Name : string;
  TagVal : option string;
  IsExported : bool;
  Value : go_value
}.

(** [ValidateStruct] returns, or panics: [Interface()] on a value read
    through an unexported field panics. *)
Inductive outcome : Type :=
  | Returns (ok : bool) (err : option error)
  | Panics.

Fixpoint ValidateStruct (fields : list StructField) : outcome :=
  match fields with
  | [] => Returns true None
  | field :: rest =>
      match TagVal field with
      | None => ValidateStruct rest
      | Some tag =>
          if negb (IsExported field) then Panics
          else match Value field with
               | VString v =>
                   let '(ok, err) := stringValidators tag (Name field) v in
                   if negb ok then Returns false err else ValidateStruct rest
               | VInt v =>
                   let '(ok, err) := intValidators tag (Name field) v in
                   if negb ok then Returns false err else ValidateStruct rest
               | VOther => ValidateStruct rest
               end
      end
  end.

End WithLib.

(** ** validator.go: [ValidatedValue[T]] *)

Record ValidatedValue (T : Type) : Type := {
  value : T;
  Validator : option (T -> result)      (* None: a nil interface *)
}.
Arguments value {T}.
Arguments Validator {T}.

(** [Set] returns the receiver's new state and its error. *)
Definition ValidatedValue_Set {T : Type} (v : ValidatedValue T) (val : T)
  : ValidatedValue T * option error :=
  match Validator v with
  | None => (v, Some ErrNoValidator)
  | Some validate =>
      let '(ok, err) := validate val in
      if negb ok then (v, err)
      else ({| value := val; Validator := Validator v |}, None)
  end.

Definition ValidatedValue_Get {T : Type} (v : ValidatedValue T) : T := value v.

(** ** Vocabulary for the statements *)

(** The result contract of [Validator[T]]: [(true, nil)] or
    [(false, err)] with [err] non-nil. *)
Definition contract (r : result) : Prop :=
  r = (true, None) \/ exists e, r = (false, Some e).

(** The trimmed first comma-separated token of a tag: the directive. *)
Definition directive_of (tag : string) : string := TrimSpace (hd "" (Split tag ","%char)).

(** The directive names of the two switches in tag.go. *)
Definition string_directives : list string :=
  ["length"; "min"; "max"; "regex"; "alphanum"; "ipv4"; "ipv6"; "mac";
   "json"; "xml"; "url"; "email"; "!empty"].
Definition int_directives : list string := ["range"; "pos"; "neg"].

(** Errors of the parameter helpers of tag.go. *)
Definition is_param_error (e : error) : bool :=
  match e with
  | ErrExpected2Params _ | ErrInvalidParamValue _ _ | ErrExpected1Param _ _
  | ErrExpectedParam _ _ | ErrMalformedPair _ | ErrRegexp _ => true
  | _ => false
  end.

Fixpoint has_char (c : ascii) (s : string) : bool :=
  match s with
  | EmptyString => false
  | String d s' => Ascii.eqb d c || has_char c s'
  end.

(** An exported, tagged struct field. *)
Definition tagged_field (n t : string) (v : go_value) : StructField :=
  {| Name := n; TagVal := Some t; IsExported := true; Value := v |}.

(** The record of the end-to-end example: [Number int] tagged
    [range,min=4,max=6] and [Word string] holding "Pluk" with the tag
    [wordTag]. *)
Definition NumberWord (number : Z) (wordTag : string) : list StructField :=
  [tagged_field "Number" "range,min=4,max=6" (VInt number);
   tagged_field "Word" wordTag (VString "Pluk")].

(** A standard-library instance for concrete runs that never reach it:
    every parser accepts. *)
Definition accepting_lib : GoLib := {|
  ParseRequestURI := fun _ => None;
  ParseAddress := fun _ => None;
  ParseMAC := fun _ => None;
  ParseIP := fun _ => Some [127; 0; 0; 1];
  RegexpCompile := fun _ => None;
  RegexpMatch := fun _ _ => true;
  JsonValid := fun _ => true;
  XmlTokens := fun _ => ([XStartElement], None)
|}.

(** ** validators.go and validator.go: [Handle] and [MustValidate] *)

(** The [Handle] method shared by the validators of validators.go. *)
Definition Handle {T : Type} (v : T -> result) (val : T) : option error :=
  let '(ok, err) := v val in
  if negb ok then err else None.

(** [MustValidate] returns its argument or panics with the error. *)
Inductive must_outcome (T : Type) : Type :=
  | MustReturns (val : T)
  | MustPanics (err : option error).
Arguments MustReturns {T}.
Arguments MustPanics {T}.

Definition MustValidate {T : Type} (val : T) (v : T -> result) : must_outcome T :=
  let '(ok, err) := v val in
  if negb ok then MustPanics err else MustReturns val.

(** Successive [Set] calls on one [ValidatedValue], errors ignored. *)
Definition ValidatedValue_SetAll {T : Type} (vv : ValidatedValue T) (vals : list T)
  : ValidatedValue T :=
  fold_left (fun w x => fst (ValidatedValue_Set w x)) vals vv.

(** The last of [vals] that [validate] accepts, or [dflt]. *)
Fixpoint last_accepted {T : Type} (validate : T -> result) (vals : list T) (dflt : T) : T :=
  match vals with
  | [] => dflt
  | x :: rest => last_accepted validate rest (if fst (validate x) then x else dflt)
  end.

(** ** Vocabulary for the walker properties *)

(** A field [ValidateStruct] acts on: tagged, and either unexported (the
    [Interface()] call panics) or of dynamic type string or int. *)
Definition walked (f : StructField) : bool :=
  match TagVal f with
  | None => false
  | Some _ => negb (IsExported f) || match Value f with VOther => false | _ => true end
  end.

(** A field passes: untagged, tagged with a dynamic type other than
    string and int, or exported and accepted by its directive. *)
Definition field_passes (lib : GoLib) (f : StructField) : Prop :=
  match TagVal f with
  | None => True
  | Some tag =>
      IsExported f = true
      /\ match Value f with
         | VString v => fst (stringValidators lib tag (Name f) v) = true
         | VInt v => fst (intValidators tag (Name f) v) = true
         | VOther => True
         end
  end.

(** A string whose first byte is not an ASCII letter or digit. *)
Definition head_not_alnum (p : string) : Prop :=
  match p with String b _ => is_alnum b = false | EmptyString => False end.

(** * Properties *)

(** ** Helper lemmas *)

Lemma CompositeValidate_contract {T} (fs : list (T -> result)) (x : T) :
  Forall (fun f => contract (f x)) fs -> contract (CompositeValidate fs x).
Proof.
  induction 1 as [|f fs Hf _ IH]; simpl; [left; reflexivity|].
  destruct (f x) as [ok err] eqn:E; destruct ok; [exact IH|].
  destruct Hf as [H|[e H]]; inversion H; subst; right; eauto.
Qed.

Lemma ValidateInt_contract (v : IntValidator) (x : Z) : contract (ValidateInt v x).
Proof.
  revert x; induction v using IntValidator_rect'; intros x; simpl;
    unfold IntRangeValidator_Validate, NonNegativeIntValidator_Validate,
      NonPositiveIntValidator_Validate, IntCmpRangeValidator_Validate, contract.
  1-4: repeat match goal with |- context [if ?b then _ else _] => destruct b end;
       eauto.
  apply CompositeValidate_contract.
  induction H; simpl; constructor; auto.
Qed.

Lemma ValidateString_contract (lib : GoLib) (v : StringValidator) (x : string) :
  contract (ValidateString lib v x).
Proof.
  revert x; induction v using StringValidator_rect'; intros x.
  - destruct v; try (exfalso; eapply H; reflexivity); simpl;
      unfold UrlValidator_Validate, EmailValidator_Validate,
        NonEmptyStringValidator_Validate, MinLengthValidator_Validate,
        MaxLengthValidator_Validate, LengthRangeValidator_Validate,
        RegexValidator_Validate, AlphaNumericValidator_Validate,
        MACAddressValidator_Validate, IpValidator_Validate, IPv4Validator_Validate,
        IPv6Validator_Validate, XMLValidator_Validate, JSONValidator_Validate,
        StrCmpRangeValidator_Validate, contract;
      repeat match goal with
             | |- context [if ?b then _ else _] => destruct b
             | |- context [match ?m with _ => _ end] => destruct m
             end; eauto.
  - simpl; apply CompositeValidate_contract.
    induction H; simpl; constructor; auto.
Qed.

Lemma split_at_nonnil (sep : ascii) (s : string) : split_at sep s <> [].
Proof.
  induction s as [|c s IH]; simpl; [discriminate|].
  destruct (Ascii.eqb c sep); [discriminate|].
  destruct (split_at sep s); [contradiction|discriminate].
Qed.

Lemma split_at_no_sep (sep : ascii) (a : string) :
  has_char sep a = false -> split_at sep a = [a].
Proof.
  induction a as [|c a IH]; simpl; [reflexivity|].
  intros H; apply orb_false_iff in H as [H1 H2].
  rewrite H1, IH by exact H2; reflexivity.
Qed.

Lemma split_at_app_sep (sep : ascii) (a b : string) :
  has_char sep a = false -> split_at sep (a ++ String sep b) = a :: split_at sep b.
Proof.
  induction a as [|c a IH]; simpl; intros H.
  - rewrite Ascii.eqb_refl; reflexivity.
  - apply orb_false_iff in H as [H1 H2]; rewrite H1, IH by exact H2; reflexivity.
Qed.

Lemma split_at_cases (sep : ascii) (s : string) :
  has_char sep s = false
  \/ exists a b, s = a ++ String sep b /\ has_char sep a = false.
Proof.
  induction s as [|c s IH]; simpl; [left; reflexivity|].
  destruct (Ascii.eqb c sep) eqn:E; simpl.
  - right; exists EmptyString, s; apply Ascii.eqb_eq in E; subst; split; reflexivity.
  - destruct IH as [H|(a & b & -> & H)]; [left; exact H|].
    right; exists (String c a), b; simpl; rewrite E; split; [reflexivity|exact H].
Qed.

(** [Split s sep] has exactly two parts iff [s] has exactly one [sep]. *)
Lemma Split_two (s a b : string) (sep : ascii) :
  Split s sep = [a; b] <->
  s = a ++ String sep b /\ has_char sep a = false /\ has_char sep b = false.
Proof.
  unfold Split; split.
  - intros H.
    destruct (split_at_cases sep s) as [Hn|(a' & b' & -> & Ha)].
    + rewrite split_at_no_sep in H by exact Hn; discriminate.
    + rewrite split_at_app_sep in H by exact Ha.
      injection H as -> Hb.
      destruct (split_at_cases sep b') as [Hn|(a2 & b2 & -> & Ha2)].
      * rewrite split_at_no_sep in Hb by exact Hn; injection Hb as ->; auto.
      * rewrite split_at_app_sep in Hb by exact Ha2; injection Hb as _ Hb.
        exfalso; exact (split_at_nonnil sep b2 Hb).
  - intros (-> & Ha & Hb); rewrite split_at_app_sep, split_at_no_sep by assumption;
      reflexivity.
Qed.

Lemma kv_error (pr : string) (e : error) : kv pr = inl e -> e = ErrMalformedPair pr.
Proof.
  unfold kv; destruct (Split pr "="%char) as [|x [|y [|z l]]]; try congruence.
  destruct (_ && _); congruence.
Qed.

Lemma rangeFinder_loop_error (ps : list string) (mn mx : Z) (e : error) :
  rangeFinder_loop ps mn mx = inl e -> is_param_error e = true.
Proof.
  revert mn mx; induction ps as [|p ps IH]; simpl; intros mn mx H; [discriminate|].
  destruct (kv p) as [e'|[k v]] eqn:E.
  - injection H as <-; apply kv_error in E; subst; reflexivity.
  - destruct (String.eqb k minKey); [|destruct (String.eqb k maxKey)];
      try destruct (Atoi v); try (injection H as <-; reflexivity); eauto.
Qed.

Lemma rangeFinder_error (ps : list string) (e : error) :
  rangeFinder ps = inl e -> is_param_error e = true.
Proof.
  unfold rangeFinder; destruct (negb _).
  - intros H; injection H as <-; reflexivity.
  - apply rangeFinder_loop_error.
Qed.

Lemma stringParam_error (key : string) (ps : list string) (e : error) :
  stringParam key ps = inl e -> is_param_error e = true.
Proof.
  unfold stringParam; destruct ps as [|p [|q ps]];
    try (intros H; injection H as <-; reflexivity).
  destruct (String.eqb p ""); [intros H; injection H as <-; reflexivity|].
  destruct (kv p) as [e'|[k v]] eqn:E; intros H.
  - injection H as <-; apply kv_error in E; subst; reflexivity.
  - destruct (negb _); [injection H as <-; reflexivity|discriminate].
Qed.

Lemma intParam_error (key : string) (ps : list string) (e : error) :
  intParam key ps = inl e -> is_param_error e = true.
Proof.
  unfold intParam; destruct (stringParam key ps) eqn:E; intros H.
  - injection H as <-; eapply stringParam_error; eauto.
  - destruct (Atoi s); [discriminate|injection H as <-; reflexivity].
Qed.

Lemma patternParam_error (lib : GoLib) (ps : list string) (e : error) :
  patternParam lib ps = inl e -> is_param_error e = true.
Proof.
  unfold patternParam; destruct (stringParam patternKey ps) eqn:E; intros H.
  - injection H as <-; eapply stringParam_error; eauto.
  - destruct (RegexpCompile lib s); [injection H as <-; reflexivity|discriminate].
Qed.

Lemma vals_split (tag name : string) : vals tag name = inr (Split tag ","%char).
Proof.
  unfold vals; destruct (Split tag ","%char) eqn:E; [|reflexivity].
  exfalso; exact (split_at_nonnil _ _ E).
Qed.

Lemma fieldValidate_shape {T} (name : string) (value : T) (v : T -> result) :
  fieldValidate name value v = (true, None)
  \/ exists c, fieldValidate name value v = (false, Some (ErrValidatingField name c)).
Proof.
  unfold fieldValidate; destruct (v value) as [[|] err]; simpl; eauto.
Qed.

Ltac not_listed H :=
  repeat (match goal with
          | |- context [String.eqb ?id ?lit] =>
              destruct (String.eqb_spec id lit) as [->|_];
              [exfalso; apply H; simpl; tauto|]
          end); reflexivity.

Lemma stringDirective_unlisted (lib : GoLib) (id name : string) (ps : list string) :
  ~ In id string_directives ->
  stringDirective lib id name ps = inl (ErrUnknownValidator id name).
Proof. intros H; unfold stringDirective; not_listed H. Qed.

Lemma intDirective_unlisted (id name : string) (ps : list string) :
  ~ In id int_directives -> intDirective id name ps = inl (ErrUnknownValidator id name).
Proof. intros H; unfold intDirective; not_listed H. Qed.

Ltac listed_branch :=
  intros Hd;
  repeat match type of Hd with
         | match ?m with _ => _ end = _ => destruct m eqn:?
         end;
  try discriminate;
  repeat match type of Hd with inl _ = inl _ => injection Hd as <- end;
  eauto using rangeFinder_error, intParam_error, patternParam_error.

Lemma stringDirective_listed (lib : GoLib) (id name : string) (ps : list string) (e : error) :
  In id string_directives -> stringDirective lib id name ps = inl e -> is_param_error e = true.
Proof.
  intros H; simpl in H; unfold stringDirective;
    repeat destruct H as [<-|H]; try contradiction; cbn -[rangeFinder intParam patternParam];
    listed_branch.
Qed.

Lemma intDirective_listed (id name : string) (ps : list string) (e : error) :
  In id int_directives -> intDirective id name ps = inl e -> is_param_error e = true.
Proof.
  intros H; simpl in H; unfold intDirective;
    repeat destruct H as [<-|H]; try contradiction; cbn -[rangeFinder];
    listed_branch.
Qed.

(** ** Runs of the string and number helpers *)

Example Atoi_ex1 : Atoi "42" = Some 42. Proof. reflexivity. Qed.
Example Atoi_ex2 : Atoi "-7" = Some (-7). Proof. reflexivity. Qed.
Example Atoi_ex3 : Atoi "+" = None. Proof. reflexivity. Qed.
Example Atoi_ex4 : Atoi "4a" = None. Proof. reflexivity. Qed.
Example Atoi_ex5 : Atoi "9223372036854775808" = None. Proof. vm_compute. reflexivity. Qed.
Example TrimSpace_ex1 : TrimSpace (str_of_codes [32; 9; 97; 32; 98; 194; 160]%nat) = "a b".
Proof. reflexivity. Qed.
Example Split_ex1 : Split "range,min=4,max=6" ","%char = ["range"; "min=4"; "max=6"].
Proof. reflexivity. Qed.
Example Split_ex2 : Split "" ","%char = [""]. Proof. reflexivity. Qed.

(** ** Claims *)

(** C1 (as stated, refuted).  With [Word] tagged
    [lengthrange,min=4,max=6] and [Number = 5] the record does not
    validate: [lengthrange] is not a directive of [stringValidators]. *)
Lemma C1_lengthrange_unknown :
  ValidateStruct accepting_lib (NumberWord 5 "lengthrange,min=4,max=6")
  = Returns false (Some (ErrUnknownValidator "lengthrange" "Word")).
Proof. reflexivity. Qed.

(** C1 (amended).  For every standard library: with [Word] tagged
    [length,min=4,max=6], the code's length-range directive, the record
    with [Number = 5] validates; tagged [lengthrange,min=4,max=6] it fails
    with an unknown-validator error for [Word]; with [Number = 7] it fails
    under either tag with an error naming the field [Number]. *)
Theorem C1_end_to_end (lib : GoLib) :
  ValidateStruct lib (NumberWord 5 "length,min=4,max=6") = Returns true None
  /\ ValidateStruct lib (NumberWord 5 "lengthrange,min=4,max=6")
     = Returns false (Some (ErrUnknownValidator "lengthrange" "Word"))
  /\ (forall wordTag, In wordTag ["length,min=4,max=6"; "lengthrange,min=4,max=6"] ->
        exists e, ValidateStruct lib (NumberWord 7 wordTag) = Returns false (Some e)
                  /\ names_field "Number" e = true).
Proof.
  split; [reflexivity|split; [reflexivity|]].
  intros wordTag H; simpl in H.
  destruct H as [<-|[<-|[]]]; eexists; split; reflexivity.
Qed.

(** C2 (as stated, refuted).  [nonempty] (string) and [nonnegative] (int)
    of the spec's vocabulary are unknown directives to the code. *)
Lemma C2_spec_names_unknown :
  stringValidators accepting_lib "nonempty" "Word" "x"
  = (false, Some (ErrUnknownValidator "nonempty" "Word"))
  /\ intValidators "nonnegative" "Number" 1
     = (false, Some (ErrUnknownValidator "nonnegative" "Number")).
Proof. split; reflexivity. Qed.

(** C2 (amended).  The trimmed first token of a tag is dispatched iff it
    is one of [string_directives] (string fields) or [int_directives] (int
    fields); any other name yields exactly the unknown-validator error for
    that name and field, and a listed name never does. *)
Theorem C2_directive_vocabulary (lib : GoLib) (tag name s : string) (n : Z) :
  (~ In (directive_of tag) string_directives ->
     stringValidators lib tag name s
     = (false, Some (ErrUnknownValidator (directive_of tag) name)))
  /\ (In (directive_of tag) string_directives ->
        forall id, snd (stringValidators lib tag name s) <> Some (ErrUnknownValidator id name))
  /\ (~ In (directive_of tag) int_directives ->
        intValidators tag name n = (false, Some (ErrUnknownValidator (directive_of tag) name)))
  /\ (In (directive_of tag) int_directives ->
        forall id, snd (intValidators tag name n) <> Some (ErrUnknownValidator id name)).
Proof.
  unfold stringValidators, intValidators, directive_of; rewrite !vals_split.
  repeat split.
  - intros H; rewrite stringDirective_unlisted by exact H; reflexivity.
  - intros H id.
    destruct (stringDirective lib _ name _) as [e|v] eqn:E.
    + apply stringDirective_listed in E; [|exact H].
      simpl; intros Heq; injection Heq as Heq; subst e; discriminate.
    + destruct (fieldValidate_shape name s (ValidateString lib v)) as [->|[c ->]];
        simpl; congruence.
  - intros H; rewrite intDirective_unlisted by exact H; reflexivity.
  - intros H id.
    destruct (intDirective _ name _) as [e|v] eqn:E.
    + apply intDirective_listed in E; [|exact H].
      simpl; intros Heq; injection Heq as Heq; subst e; discriminate.
    + destruct (fieldValidate_shape name n (ValidateInt v)) as [->|[c ->]];
        simpl; congruence.
Qed.

(** C3 (code defect).  [rangeFinder] checks only that there are two
    parameters: an unknown key ([foo]) or a repeated key is skipped and
    the missing bound keeps its zero default, so [range,min=4,foo=6]
    builds [IntRangeValidator{Min: 4, Max: 0}] instead of failing. *)
Theorem C3_rangeFinder_ignores_keys :
  rangeFinder ["min=4"; "foo=6"] = inr (4, 0)
  /\ rangeFinder ["min=1"; "min=2"] = inr (2, 0)
  /\ intDirective "range" "Number" ["min=4"; "foo=6"] = inr (IntRangeValidator 4 0)
  /\ intValidators "range,min=4,foo=6" "Number" 5
     = (false, Some (ErrValidatingField "Number" (Some (ErrOutOfRange 5 4 0)))).
Proof. repeat split; reflexivity. Qed.

(** C4 (as stated, refuted).  A parameter whose value contains [=] is
    rejected as malformed rather than split at its first [=]. *)
Lemma C4_two_separators_rejected :
  kv "key=va=lue" = inl (ErrMalformedPair "key=va=lue").
Proof. reflexivity. Qed.

(** C4 (amended).  [kv] accepts a token exactly when it contains exactly
    one [=] and both sides are non-empty after [TrimSpace]; key and value
    are then the trimmed sides.  Every other token fails with the
    malformed-pair error for that token. *)
Theorem C4_kv_exactly_one_separator (pr k v : string) :
  (kv pr = inr (k, v) <->
     exists a b, pr = a ++ String "="%char b
                 /\ has_char "="%char a = false /\ has_char "="%char b = false
                 /\ k = TrimSpace a /\ v = TrimSpace b /\ k <> "" /\ v <> "")
  /\ (forall e, kv pr = inl e -> e = ErrMalformedPair pr).
Proof.
  split; [|apply kv_error].
  unfold kv; split.
  - destruct (Split pr "="%char) as [|a [|b [|c l]]] eqn:E; try discriminate.
    destruct (String.eqb_spec (TrimSpace a) ""), (String.eqb_spec (TrimSpace b) "");
      simpl; try discriminate.
    intros H; injection H as <- <-.
    apply Split_two in E as (-> & Ha & Hb).
    exists a, b; repeat split; auto.
  - intros (a & b & -> & Ha & Hb & -> & -> & Hk & Hv).
    rewrite (proj2 (Split_two _ a b _)) by auto.
    destruct (String.eqb_spec (TrimSpace a) ""), (String.eqb_spec (TrimSpace b) "");
      try contradiction; reflexivity.
Qed.

(** C5 (code defect).  A parameter error of the first failing field is
    returned without the field name: [Number] tagged [range,min=4] makes
    [ValidateStruct] return [rangeFinder]'s error, which carries no field
    operand, while an unknown directive or a rejected value is reported
    with the field name. *)
Theorem C5_parameter_error_unnamed :
  ValidateStruct accepting_lib
    [tagged_field "Number" "range,min=4" (VInt 5);
     tagged_field "Word" "length,min=4,max=6" (VString "Pluk")]
  = Returns false (Some (ErrExpected2Params ["min=4"]))
  /\ names_field "Number" (ErrExpected2Params ["min=4"]) = false.
Proof. split; reflexivity. Qed.

Lemma CompositeValidate_passing_prefix {T} (pre rest : list (T -> result)) (x : T) :
  Forall (fun u => fst (u x) = true) pre ->
  CompositeValidate (pre ++ rest)%list x = CompositeValidate rest x.
Proof.
  induction 1 as [|u pre Hu _ IH]; simpl; [reflexivity|].
  destruct (u x) as [ok err]; simpl in Hu; subst ok; exact IH.
Qed.

(** C6.  The composite validator succeeds iff every member does, and
    then with a nil error; it fails with exactly the result of the first
    failing member, whatever follows that member; for
    [[NonEmpty, MinLength{3}]] the runs on "", "ab" and "abc" are the
    spec's. *)
Theorem C6_composite_first_failure :
  (forall (T : Type) (vs : list (T -> result)) (x : T),
     (fst (CompositeValidate vs x) = true <-> Forall (fun v => fst (v x) = true) vs)
     /\ (fst (CompositeValidate vs x) = true -> CompositeValidate vs x = (true, None))
     /\ (fst (CompositeValidate vs x) = false ->
           exists pre v post, vs = (pre ++ v :: post)%list
                              /\ Forall (fun u => fst (u x) = true) pre
                              /\ fst (v x) = false)
     /\ (forall pre v post,
           Forall (fun u => fst (u x) = true) pre -> fst (v x) = false ->
           CompositeValidate (pre ++ v :: post)%list x = (false, snd (v x))))
  /\ CompositeValidate [NonEmptyStringValidator_Validate; MinLengthValidator_Validate 3] ""
     = (false, Some ErrEmptyString)
  /\ CompositeValidate [NonEmptyStringValidator_Validate; MinLengthValidator_Validate 3] "ab"
     = (false, Some (ErrBelowMinLength "ab" 3))
  /\ CompositeValidate [NonEmptyStringValidator_Validate; MinLengthValidator_Validate 3] "abc"
     = (true, None).
Proof.
  split; [|repeat split; reflexivity].
  intros T vs x; split; [|split; [|split]].
  - induction vs as [|v vs IH]; simpl; [split; auto|].
    destruct (v x) as [[|] err] eqn:E; simpl.
    + rewrite IH; split; intros H; [constructor; [rewrite E; reflexivity|exact H]|].
      inversion H; assumption.
    + split; [discriminate|intros H; inversion H as [|? ? Hv]; rewrite E in Hv; discriminate].
  - induction vs as [|v vs IH]; simpl; [reflexivity|].
    destruct (v x) as [[|] err]; simpl; [exact IH|discriminate].
  - induction vs as [|v vs IH]; simpl; [discriminate|].
    destruct (v x) as [[|] err] eqn:E; simpl; intros H.
    + destruct (IH H) as (pre & w & post & -> & Hpre & Hw).
      exists (v :: pre), w, post; repeat split; auto.
      constructor; [rewrite E; reflexivity|exact Hpre].
    + exists [], v, vs; repeat split; auto; rewrite E; reflexivity.
  - intros pre v post Hpre Hv.
    rewrite CompositeValidate_passing_prefix by exact Hpre; simpl.
    destruct (v x) as [ok err]; simpl in Hv; subst ok; reflexivity.
Qed.

(** C7.  [IntRangeValidator{min, max}] accepts every [v] with
    [min <= v <= max] and rejects [min - 1] and [max + 1]. *)
Theorem C7_int_range_inclusive (min max : Z) :
  (forall v, min <= v <= max -> fst (ValidateInt (IntRangeValidator min max) v) = true)
  /\ fst (ValidateInt (IntRangeValidator min max) (min - 1)) = false
  /\ fst (ValidateInt (IntRangeValidator min max) (max + 1)) = false.
Proof.
  simpl; unfold IntRangeValidator_Validate; repeat split.
  - intros v Hv.
    destruct (v <? min) eqn:E1; [apply Z.ltb_lt in E1; lia|].
    destruct (v >? max) eqn:E2; [apply Z.gtb_lt in E2; lia|reflexivity].
  - replace (min - 1 <? min) with true by (symmetry; apply Z.ltb_lt; lia); reflexivity.
  - replace (max + 1 >? max) with true by (symmetry; apply Z.gtb_lt; lia).
    rewrite orb_true_r; reflexivity.
Qed.

(** C8.  A zero [Size] of the min- and max-length validators, and a zero
    [Min] or [Max] of the length-range validator, reject every string
    with the configuration error for that bound. *)
Theorem C8_zero_bound_rejects (s : string) (n : Z) :
  MinLengthValidator_Validate 0 s = (false, Some ErrSizeZero)
  /\ MaxLengthValidator_Validate 0 s = (false, Some ErrSizeZero)
  /\ LengthRangeValidator_Validate 0 n s = (false, Some ErrMinZero)
  /\ LengthRangeValidator_Validate n 0 s
     = (false, Some (if n =? 0 then ErrMinZero else ErrMaxZero)).
Proof.
  unfold MinLengthValidator_Validate, MaxLengthValidator_Validate,
    LengthRangeValidator_Validate; repeat split.
  destruct (n =? 0); reflexivity.
Qed.

(** C9.  Every int and string validator of the library, composites
    included, returns [(true, nil)] or [(false, err)] with [err] non-nil,
    whatever the standard library's parsers answer. *)
Theorem C9_result_contract (lib : GoLib) :
  (forall (v : IntValidator) (x : Z), contract (ValidateInt v x))
  /\ (forall (v : StringValidator) (x : string), contract (ValidateString lib v x)).
Proof.
  split; intros v x; [apply ValidateInt_contract|apply ValidateString_contract].
Qed.

(** C10 (as stated, refuted).  A [ValidatorFunc] that answers
    [(false, nil)] makes [Set(2)] return nil while [Get] still returns
    the old value [1]. *)
Lemma C10_silent_rejection :
  let vv := {| value := 1; Validator := Some (fun _ : Z => (false, @None error)) |} in
  snd (ValidatedValue_Set vv 2) = None
  /\ ValidatedValue_Get (fst (ValidatedValue_Set vv 2)) = 1.
Proof. split; reflexivity. Qed.

(** C10 (amended).  [Set] stores [val] only when the validator accepts
    it, and otherwise leaves the receiver unchanged (in particular on a
    non-nil error); when [Set] returns nil, [Get] returns [val] provided
    the validator keeps the result contract, as every library validator
    does. *)
Theorem C10_set_get (T : Type) (vv : ValidatedValue T) (val : T) :
  (forall e, snd (ValidatedValue_Set vv val) = Some e -> fst (ValidatedValue_Set vv val) = vv)
  /\ (fst (ValidatedValue_Set vv val) = vv
      \/ exists validate, Validator vv = Some validate /\ fst (validate val) = true
                          /\ fst (ValidatedValue_Set vv val)
                             = {| value := val; Validator := Validator vv |})
  /\ (snd (ValidatedValue_Set vv val) = None ->
        (forall validate, Validator vv = Some validate -> contract (validate val)) ->
        ValidatedValue_Get (fst (ValidatedValue_Set vv val)) = val)
  /\ (forall (lib : GoLib) (iv : IntValidator) (sv : StringValidator)
             (wi : ValidatedValue Z) (ws : ValidatedValue string) (z : Z) (s : string),
        (Validator wi = Some (ValidateInt iv) -> snd (ValidatedValue_Set wi z) = None ->
           ValidatedValue_Get (fst (ValidatedValue_Set wi z)) = z)
        /\ (Validator ws = Some (ValidateString lib sv) -> snd (ValidatedValue_Set ws s) = None ->
              ValidatedValue_Get (fst (ValidatedValue_Set ws s)) = s)).
Proof.
  assert (Hgen : forall (U : Type) (w : ValidatedValue U) (u : U),
            snd (ValidatedValue_Set w u) = None ->
            (forall validate, Validator w = Some validate -> contract (validate u)) ->
            ValidatedValue_Get (fst (ValidatedValue_Set w u)) = u).
  { intros U w u; unfold ValidatedValue_Set.
    destruct (Validator w) as [validate|]; simpl; [|discriminate].
    intros Hn Hc; specialize (Hc validate eq_refl).
    destruct Hc as [E|[e E]]; rewrite E in *; simpl in *; [reflexivity|discriminate]. }
  split; [|split; [|split]].
  - unfold ValidatedValue_Set; destruct (Validator vv) as [validate|]; simpl; [|auto].
    destruct (validate val) as [[|] err]; simpl; [discriminate|auto].
  - unfold ValidatedValue_Set; destruct (Validator vv) as [validate|] eqn:Ev; simpl; [|auto].
    destruct (validate val) as [[|] err] eqn:E; simpl; [|auto].
    right; exists validate; rewrite E; auto.
  - apply Hgen.
  - intros lib iv sv wi ws z s; split; intros Hv Hn; apply Hgen; auto;
      intros validate Hw; rewrite Hv in Hw; injection Hw as <-;
      [apply ValidateInt_contract|apply ValidateString_contract].
Qed.

(** ** Further properties of the code *)

Lemma stringValidators_shape (lib : GoLib) (tag name v : string) :
  stringValidators lib tag name v = (true, None)
  \/ exists e, stringValidators lib tag name v = (false, Some e)
               /\ (is_param_error e = true \/ names_field name e = true).
Proof.
  unfold stringValidators; rewrite vals_split.
  destruct (stringDirective lib _ name _) as [e|w] eqn:E.
  - right; exists e; split; [reflexivity|].
    destruct (in_dec string_dec (TrimSpace (hd "" (Split tag ","%char))) string_directives) as [Hi|Hi].
    + left; eapply stringDirective_listed; eauto.
    + rewrite stringDirective_unlisted in E by exact Hi; injection E as <-.
      right; apply String.eqb_refl.
  - destruct (fieldValidate_shape name v (ValidateString lib w)) as [->|[c ->]]; [left; reflexivity|].
    right; eexists; split; [reflexivity|right; apply String.eqb_refl].
Qed.

Lemma intValidators_shape (tag name : string) (v : Z) :
  intValidators tag name v = (true, None)
  \/ exists e, intValidators tag name v = (false, Some e)
               /\ (is_param_error e = true \/ names_field name e = true).
Proof.
  unfold intValidators; rewrite vals_split.
  destruct (intDirective _ name _) as [e|w] eqn:E.
  - right; exists e; split; [reflexivity|].
    destruct (in_dec string_dec (TrimSpace (hd "" (Split tag ","%char))) int_directives) as [Hi|Hi].
    + left; eapply intDirective_listed; eauto.
    + rewrite intDirective_unlisted in E by exact Hi; injection E as <-.
      right; apply String.eqb_refl.
  - destruct (fieldValidate_shape name v (ValidateInt w)) as [->|[c ->]]; [left; reflexivity|].
    right; eexists; split; [reflexivity|right; apply String.eqb_refl].
Qed.

(** Untagged fields, and exported tagged fields whose dynamic type is
    neither string nor int, do not affect [ValidateStruct]. *)
Theorem ValidateStruct_skips_unwalked (lib : GoLib) (fs : list StructField) :
  ValidateStruct lib fs = ValidateStruct lib (filter walked fs).
Proof.
  induction fs as [|f fs IH]; [reflexivity|].
  destruct f as [n [tag|] [|] [v|v|]]; simpl; rewrite <- ?IH; reflexivity.
Qed.

(** [ValidateStruct] over [fs1 ++ fs2] walks [fs2] only when [fs1]
    passes; otherwise its outcome is that of [fs1]. *)
Theorem ValidateStruct_app (lib : GoLib) (fs1 fs2 : list StructField) :
  ValidateStruct lib (fs1 ++ fs2)%list
  = match ValidateStruct lib fs1 with
    | Returns true _ => ValidateStruct lib fs2
    | r => r
    end.
Proof.
  induction fs1 as [|f fs IH]; simpl; [reflexivity|].
  destruct (TagVal f) as [tag|]; [|exact IH].
  destruct (IsExported f); simpl; [|reflexivity].
  destruct (Value f) as [v|v|]; [| |exact IH].
  - destruct (stringValidators lib tag (Name f) v) as [[|] err]; simpl; [exact IH|reflexivity].
  - destruct (intValidators tag (Name f) v) as [[|] err]; simpl; [exact IH|reflexivity].
Qed.

(** [ValidateStruct] returns [(true, nil)], or [(false, err)] with [err]
    non-nil, or panics; a returned error is a parameter error or names a
    field of the record. *)
Theorem ValidateStruct_outcomes (lib : GoLib) (fs : list StructField) :
  ValidateStruct lib fs = Returns true None
  \/ ValidateStruct lib fs = Panics
  \/ exists e, ValidateStruct lib fs = Returns false (Some e)
               /\ (is_param_error e = true
                   \/ exists f, In f fs /\ names_field (Name f) e = true).
Proof.
  induction fs as [|f fs IH]; simpl; [left; reflexivity|].
  assert (Hlift : (exists e, ValidateStruct lib fs = Returns false (Some e)
                   /\ (is_param_error e = true \/ exists g, In g fs /\ names_field (Name g) e = true))
                  -> exists e, ValidateStruct lib fs = Returns false (Some e)
                     /\ (is_param_error e = true
                         \/ exists g, (f = g \/ In g fs) /\ names_field (Name g) e = true)).
  { intros (e & He & [Hp|(g & Hg & Hn)]); exists e; split; auto. right; exists g; auto. }
  destruct (TagVal f) as [tag|]; [|destruct IH as [H|[H|H]]; auto].
  destruct (IsExported f); simpl; [|auto].
  destruct (Value f) as [v|v|].
  - destruct (stringValidators_shape lib tag (Name f) v) as [->|(e & -> & He)]; simpl.
    + destruct IH as [H|[H|H]]; auto.
    + right; right; exists e; split; [reflexivity|].
      destruct He as [He|He]; [left; exact He|right; exists f; auto].
  - destruct (intValidators_shape tag (Name f) v) as [->|(e & -> & He)]; simpl.
    + destruct IH as [H|[H|H]]; auto.
    + right; right; exists e; split; [reflexivity|].
      destruct He as [He|He]; [left; exact He|right; exists f; auto].
  - destruct IH as [H|[H|H]]; auto.
Qed.

(** [ValidateStruct] succeeds exactly when every field passes. *)
Theorem ValidateStruct_true_iff (lib : GoLib) (fs : list StructField) :
  ValidateStruct lib fs = Returns true None <-> Forall (field_passes lib) fs.
Proof.
  induction fs as [|f fs IH]; [simpl; split; auto|].
  rewrite Forall_cons_iff, <- IH; unfold field_passes.
  destruct f as [n [tag|] [|] [v|v|]]; simpl; try tauto.
  - destruct (stringValidators lib tag n v) as [[|] err]; simpl; intuition discriminate.
  - destruct (intValidators tag n v) as [[|] err]; simpl; intuition discriminate.
  - intuition discriminate.
  - intuition discriminate.
  - intuition discriminate.
Qed.

(** The directives without parameters never look at the parameter
    tokens: whatever follows the name, even a malformed token, they
    build their validator. *)
Theorem parameterless_directives_ignore_params (lib : GoLib) (name : string) (ps : list string) :
  (forall id, In id ["alphanum"; "ipv4"; "ipv6"; "mac"; "json"; "xml"; "url"; "email"; "!empty"] ->
     exists w, stringDirective lib id name ps = inr w /\ stringDirective lib id name [] = inr w)
  /\ (forall id, In id ["pos"; "neg"] ->
        exists w, intDirective id name ps = inr w /\ intDirective id name [] = inr w).
Proof.
  split; intros id H; simpl in H;
    repeat destruct H as [<-|H]; try contradiction; eexists; split; reflexivity.
Qed.

(** [stringParam key ps] yields [v] exactly when [ps] is one token that
    [kv] splits into [key] and [v]; its separate empty-token check never
    decides anything [kv] would not. *)
Theorem stringParam_iff (key v : string) (ps : list string) :
  stringParam key ps = inr v <-> exists p, ps = [p] /\ kv p = inr (key, v).
Proof.
  unfold stringParam; split.
  - destruct ps as [|p [|q ps]]; try discriminate.
    destruct (String.eqb_spec p ""); [discriminate|].
    destruct (kv p) as [e|[k w]] eqn:E; [discriminate|].
    destruct (String.eqb_spec k key) as [->|]; simpl; [|discriminate].
    intros H; injection H as <-; eauto.
  - intros (p & -> & Hp).
    destruct (String.eqb_spec p "") as [->|]; [discriminate|].
    rewrite Hp, String.eqb_refl; reflexivity.
Qed.

(** [rangeFinder] finds [min] and [max] by key, in either order. *)
Theorem rangeFinder_any_order (p q u w : string) (x y : Z)
  (Hp : kv p = inr (minKey, u)) (Hq : kv q = inr (maxKey, w))
  (Hu : Atoi u = Some x) (Hw : Atoi w = Some y) :
  rangeFinder [p; q] = inr (x, y) /\ rangeFinder [q; p] = inr (x, y).
Proof.
  unfold rangeFinder; simpl; rewrite Hp, Hq; simpl; rewrite Hu, Hw; split; reflexivity.
Qed.

Lemma rangeFinder_any_order_witness :
  kv " max = 6" = inr (maxKey, "6") /\
  rangeFinder ["min=4"; " max = 6"] = inr (4, 6) /\ rangeFinder [" max = 6"; "min=4"] = inr (4, 6).
Proof.
  split; [reflexivity|].
  apply (rangeFinder_any_order "min=4" " max = 6" "4" "6" 4 6); reflexivity.
Defined.

(** A space before the directive name changes nothing. *)
Theorem leading_space_ignored (lib : GoLib) (tag name s : string) (n : Z) :
  stringValidators lib (String " "%char tag) name s = stringValidators lib tag name s
  /\ intValidators (String " "%char tag) name n = intValidators tag name n.
Proof.
  assert (Ht : forall x, TrimSpace (String " "%char x) = TrimSpace x) by reflexivity.
  assert (Hs : forall t, hd "" (Split (String " "%char t) ","%char) = String " "%char (hd "" (Split t ","%char))
                         /\ tl (Split (String " "%char t) ","%char) = tl (Split t ","%char)).
  { intros t; unfold Split; simpl.
    destruct (split_at ","%char t); split; reflexivity. }
  unfold stringValidators, intValidators; rewrite !vals_split.
  destruct (Hs tag) as [H1 H2]; rewrite H1, H2, Ht; split; reflexivity.
Qed.

(** With non-zero bounds the length validators compare the byte length,
    bounds included. *)
Theorem length_validators_bounds (size min max : Z) (s : string)
  (Hsize : size <> 0) (Hmin : min <> 0) (Hmax : max <> 0) :
  let l := Z.of_nat (String.length s) in
  (fst (MinLengthValidator_Validate size s) = true <-> size <= l)
  /\ (fst (MaxLengthValidator_Validate size s) = true <-> l <= size)
  /\ (fst (LengthRangeValidator_Validate min max s) = true <-> min <= l <= max).
Proof.
  intros l; unfold MinLengthValidator_Validate, MaxLengthValidator_Validate,
    LengthRangeValidator_Validate; fold l.
  rewrite (proj2 (Z.eqb_neq _ _) Hsize), (proj2 (Z.eqb_neq _ _) Hmin),
    (proj2 (Z.eqb_neq _ _) Hmax).
  rewrite !Z.gtb_ltb; split; [|split].
  - destruct (Z.ltb_spec l size); simpl; split; intros; try discriminate; try lia; reflexivity.
  - destruct (Z.ltb_spec size l); simpl; split; intros; try discriminate; try lia; reflexivity.
  - destruct (Z.ltb_spec l min), (Z.ltb_spec max l); simpl; split; intros;
      try discriminate; try lia; reflexivity.
Qed.

Lemma length_validators_bounds_witness :
  (3 <> 0 /\ 4 <> 0 /\ 6 <> 0) /\
  (fst (MinLengthValidator_Validate 3 "abc") = true <-> 3 <= 3).
Proof.
  split; [repeat split; discriminate|].
  exact (proj1 (length_validators_bounds 3 4 6 "abc" ltac:(discriminate) ltac:(discriminate)
                  ltac:(discriminate))).
Defined.

(** [CmpRangeValidator[int]] and [IntRangeValidator] give the same
    result on every input. *)
Theorem cmp_range_matches_int_range (min max v : Z) :
  ValidateInt (IntCmpRangeValidator min max) v = ValidateInt (IntRangeValidator min max) v.
Proof.
  simpl; unfold IntCmpRangeValidator_Validate, IntRangeValidator_Validate.
  rewrite Z.gtb_ltb; reflexivity.
Qed.

(** The IP validators split the addresses [net.ParseIP] accepts: the
    IPv4 and IPv6 validators each accept only what the IP validator
    accepts, never the same string, and one of them accepts every string
    the IP validator accepts. *)
Theorem ip_validators_partition (lib : GoLib) (s : string) :
  (fst (IPv4Validator_Validate lib s) = true -> fst (IpValidator_Validate lib s) = true)
  /\ (fst (IPv6Validator_Validate lib s) = true -> fst (IpValidator_Validate lib s) = true)
  /\ ~ (fst (IPv4Validator_Validate lib s) = true /\ fst (IPv6Validator_Validate lib s) = true)
  /\ (fst (IpValidator_Validate lib s) = true ->
        fst (IPv4Validator_Validate lib s) = true \/ fst (IPv6Validator_Validate lib s) = true).
Proof.
  unfold IPv4Validator_Validate, IPv6Validator_Validate, IpValidator_Validate.
  destruct (ParseIP lib s) as [ip|]; [destruct (To4 ip)|]; simpl; intuition discriminate.
Qed.

(** The composite over [vs1 ++ vs2] runs [vs2] only when [vs1] passes,
    and a one-member composite is that member, for every library
    validator. *)
Theorem composite_app_and_singleton :
  (forall (T : Type) (vs1 vs2 : list (T -> result)) (x : T),
     CompositeValidate (vs1 ++ vs2)%list x
     = if fst (CompositeValidate vs1 x) then CompositeValidate vs2 x
       else CompositeValidate vs1 x)
  /\ (forall (v : IntValidator) (x : Z),
        ValidateInt (IntCompositeValidator [v]) x = ValidateInt v x)
  /\ (forall (lib : GoLib) (v : StringValidator) (x : string),
        ValidateString lib (StrCompositeValidator [v]) x = ValidateString lib v x).
Proof.
  split; [|split].
  - intros T vs1 vs2 x; induction vs1 as [|v vs IH]; simpl; [reflexivity|].
    destruct (v x) as [[|] err]; simpl; [exact IH|reflexivity].
  - intros v x; simpl.
    destruct (ValidateInt_contract v x) as [->|[e ->]]; reflexivity.
  - intros lib v x; simpl.
    destruct (ValidateString_contract lib v x) as [->|[e ->]]; reflexivity.
Qed.

Lemma handle_must_of_contract {T} (validate : T -> result) (x : T) :
  contract (validate x) ->
  (Handle validate x = None <-> fst (validate x) = true)
  /\ (fst (validate x) = false -> Handle validate x = snd (validate x))
  /\ MustValidate x validate
     = if fst (validate x) then MustReturns x else MustPanics (snd (validate x)).
Proof.
  unfold Handle, MustValidate; intros [E|[e E]]; rewrite E; simpl;
    repeat split; congruence.
Qed.

(** For every library validator, [Handle] returns nil exactly when
    [Validate] accepts and otherwise its error; [MustValidate] returns
    the value when [Validate] accepts and panics with its error when it
    rejects. *)
Theorem handle_and_must_follow_validate (lib : GoLib) :
  (forall (v : IntValidator) (x : Z),
     (Handle (ValidateInt v) x = None <-> fst (ValidateInt v x) = true)
     /\ (fst (ValidateInt v x) = false -> Handle (ValidateInt v) x = snd (ValidateInt v x))
     /\ MustValidate x (ValidateInt v)
        = if fst (ValidateInt v x) then MustReturns x else MustPanics (snd (ValidateInt v x)))
  /\ (forall (v : StringValidator) (x : string),
     (Handle (ValidateString lib v) x = None <-> fst (ValidateString lib v x) = true)
     /\ (fst (ValidateString lib v x) = false ->
           Handle (ValidateString lib v) x = snd (ValidateString lib v x))
     /\ MustValidate x (ValidateString lib v)
        = if fst (ValidateString lib v x) then MustReturns x
          else MustPanics (snd (ValidateString lib v x))).
Proof.
  split; intros v x; apply handle_must_of_contract;
    [apply ValidateInt_contract|apply ValidateString_contract].
Qed.

(** Successive [Set] calls never change the validator, and [Get]
    afterwards returns the last value the validator accepted, or the
    initial value if it accepted none (all of them when it is nil). *)
Theorem ValidatedValue_SetAll_last_accepted {T : Type} (vv : ValidatedValue T) (vals : list T) :
  Validator (ValidatedValue_SetAll vv vals) = Validator vv
  /\ ValidatedValue_Get (ValidatedValue_SetAll vv vals)
     = match Validator vv with
       | None => value vv
       | Some validate => last_accepted validate vals (value vv)
       end.
Proof.
  unfold ValidatedValue_SetAll, ValidatedValue_Get.
  revert vv; induction vals as [|x vals IH]; intros vv; simpl.
  - destruct (Validator vv); split; reflexivity.
  - destruct (IH (fst (ValidatedValue_Set vv x))) as [H1 H2].
    rewrite H1, H2; unfold ValidatedValue_Set.
    destruct (Validator vv) as [validate|] eqn:Ev; simpl; [|rewrite Ev; split; reflexivity].
    destruct (validate x) as [[|] err]; simpl; rewrite ?Ev; split; reflexivity.
Qed.

Lemma all_alnum_no_eq (s : string) : all_alnum s = true -> has_char "="%char s = false.
Proof.
  induction s as [|c s IH]; simpl; [reflexivity|].
  intros H; apply andb_true_iff in H as [Hc Hs]; rewrite IH by exact Hs.
  destruct (Ascii.eqb_spec c "="%char) as [->|]; [discriminate|reflexivity].
Qed.

Lemma all_alnum_app (a b : string) : all_alnum (a ++ b) = all_alnum a && all_alnum b.
Proof. induction a as [|c a IH]; simpl; [reflexivity|]; rewrite IH, andb_assoc; reflexivity. Qed.

Lemma all_alnum_rev (s : string) : all_alnum (string_rev s) = all_alnum s.
Proof.
  induction s as [|c s IH]; simpl; [reflexivity|].
  rewrite all_alnum_app, IH; simpl; rewrite andb_true_r, andb_comm; reflexivity.
Qed.

Lemma string_app_assoc (a b c : string) : (a ++ (b ++ c)) = ((a ++ b) ++ c).
Proof. induction a as [|x a IH]; simpl; [reflexivity|]; rewrite IH; reflexivity. Qed.

Lemma string_app_empty (a : string) : a ++ "" = a.
Proof. induction a as [|x a IH]; simpl; [reflexivity|]; rewrite IH; reflexivity. Qed.

Lemma string_rev_app (a b : string) : string_rev (a ++ b) = string_rev b ++ string_rev a.
Proof.
  induction a as [|x a IH]; simpl; [rewrite string_app_empty; reflexivity|].
  rewrite IH, string_app_assoc; reflexivity.
Qed.

Lemma string_rev_involutive (s : string) : string_rev (string_rev s) = s.
Proof.
  induction s as [|c s IH]; simpl; [reflexivity|].
  rewrite string_rev_app, IH; reflexivity.
Qed.

Lemma space_heads : Forall head_not_alnum space_encodings.
Proof. vm_compute; repeat constructor. Qed.

Lemma rev_space_heads : Forall head_not_alnum rev_space_encodings.
Proof. vm_compute; repeat constructor. Qed.

Lemma no_space_prefix (l : list string) (r : string) :
  Forall head_not_alnum l -> all_alnum r = true ->
  first_some (fun p => strip_prefix p r) l = None.
Proof.
  induction 1 as [|p l Hp _ IH]; intros Hr; simpl; [reflexivity|].
  rewrite IH by exact Hr.
  destruct p as [|b p]; [contradiction|]; simpl in Hp.
  destruct r as [|c r]; simpl; [reflexivity|].
  simpl in Hr; apply andb_true_iff in Hr as [Hc _].
  destruct (Ascii.eqb_spec b c) as [->|]; [congruence|reflexivity].
Qed.

Lemma TrimSpace_alnum (s : string) : all_alnum s = true -> TrimSpace s = s.
Proof.
  intros H; unfold TrimSpace, TrimLeft.
  assert (Hl : trim_left_n (String.length s) s = s).
  { destruct (String.length s); [reflexivity|]; cbn [trim_left_n].
    rewrite no_space_prefix by (exact space_heads || exact H); reflexivity. }
  rewrite Hl.
  assert (Hr : trim_right_rev_n (String.length s) (string_rev s) = string_rev s).
  { destruct (String.length s); [reflexivity|]; cbn [trim_right_rev_n].
    rewrite no_space_prefix; [reflexivity|exact rev_space_heads|].
    rewrite all_alnum_rev; exact H. }
  rewrite Hr; apply string_rev_involutive.
Qed.

(** A [key=value] token with a non-empty alphanumeric key and value
    parses back to that key and value. *)
Theorem kv_roundtrip (k v : string) (Hk : k <> "") (Hv : v <> "")
  (Ak : all_alnum k = true) (Av : all_alnum v = true) :
  kv (k ++ String "="%char v) = inr (k, v).
Proof.
  unfold kv.
  rewrite (proj2 (Split_two _ k v _)) by (repeat split; apply all_alnum_no_eq; assumption).
  rewrite !TrimSpace_alnum by assumption.
  destruct (String.eqb_spec k ""), (String.eqb_spec v ""); try contradiction; reflexivity.
Qed.

Lemma kv_roundtrip_witness : kv "size=10" = inr ("size", "10").
Proof. exact (kv_roundtrip "size" "10" ltac:(discriminate) ltac:(discriminate) eq_refl eq_refl). Defined.
